(** * The request handler of [src/main.py]

    [HttpHandler] serves two HTML pages, an error page and the files of a
    [static/] tree.  Its three methods, [do_GET], [send_html_file] and
    [send_static], are embedded below as actions of a small state and
    exception monad over a [world]: the file system the handler reads and
    the chronological log of what it did (files it tried to open, calls on
    the response-writing interface of [BaseHTTPRequestHandler]).

    The log records the calls the handler makes, not the bytes the base
    class derives from them (status text, [Server] and [Date] headers).
    Writes to the connection are taken to succeed and [urlparse] to
    return; the exceptions modelled are those of [open] and [read] and the
    interpreter's recursion limit.  A broken connection and the
    [ValueError] of [urlparse] on a malformed host are outside the model:
    every statement below is about requests on which neither happens. *)

From Stdlib Require Import ZArith String Ascii List Lia.
From Stdlib.Strings Require Import Byte.
From stdpp Require Import base option gmap strings pretty.
Import ListNotations.

Local Open Scope string_scope.
Local Open Scope Z_scope.
Local Open Scope list_scope.

(** ** Data *)

(** The exceptions that can arise while a request is handled.  Both are
    subclasses of Python's [Exception], so [except Exception] catches
    either. *)
Inductive exn : Type :=
| OSError
| RecursionError.

Inductive outcome (A : Type) : Type :=
| Returned (a : A)
| Raised (e : exn).
Arguments Returned {A} a.
Arguments Raised {A} e.

(** What [open(name, 'rb')] finds under a name: nothing (the key is absent
    from the map and [open] raises), a file whose [read()] gives bytes, or
    a file that opens but whose [read()] raises. *)
Inductive file : Type :=
| Readable (content : list byte)
| Unreadable.

(** One entry of the log, in the order the handler performs them. *)
Inductive event : Type :=
| Open (name : string)
| SendResponse (code : Z)
| SendHeader (keyword value : string)
| EndHeaders
| WfileWrite (data : list byte).

Record world : Type := World {
  files : gmap string file;
  log : list event;
}.

(** [w <+ t]: the world [w] after the events [t]; the files are untouched. *)
Definition extend (w : world) (t : list event) : world :=
  World (files w) (log w ++ t).
Infix "<+" := extend (at level 45, left associativity).

(** ** The monad of handler actions *)

Definition M (A : Type) : Type := world -> world * outcome A.

#[global] Instance M_ret : MRet M := fun A a w => (w, Returned a).

#[global] Instance M_bind : MBind M := fun A B k m w =>
  match m w with
  | (w', Returned a) => k a w'
  | (w', Raised e) => (w', Raised e)
  end.

Definition raise {A : Type} (e : exn) : M A := fun w => (w, Raised e).

(** [try: m except Exception: h].  Every member of [exn] is an
    [Exception], so the handler runs whatever [m] raised; what [m] did
    before raising stays done. *)
Definition try_except {A : Type} (m h : M A) : M A := fun w =>
  match m w with
  | (w', Returned a) => (w', Returned a)
  | (w', Raised _) => h w'
  end.

Definition emit (e : event) : M unit := fun w => (w <+ [e], Returned tt).

(** The calls the handler makes on its base class and on the file system. *)
Definition send_response (code : Z) : M unit := emit (SendResponse code).
Definition send_header (keyword value : string) : M unit :=
  emit (SendHeader keyword value).
Definition end_headers : M unit := emit EndHeaders.
Definition wfile_write (data : list byte) : M unit := emit (WfileWrite data).

Definition open_rb (name : string) : M file := fun w =>
  match files w !! name with
  | Some f => (w <+ [Open name], Returned f)
  | None => (w <+ [Open name], Raised OSError)
  end.

Definition file_read (f : file) : M (list byte) :=
  match f with
  | Readable content => mret content
  | Unreadable => raise OSError
  end.

(** ** Python values the handler computes with *)

(** [s[1:]] *)
Definition slice_from_1 (s : string) : string :=
  match s with
  | EmptyString => EmptyString
  | String _ rest => rest
  end.

(** [a or b] on an optional string: [None] and the empty string are falsy. *)
Definition py_or (a : option string) (b : string) : string :=
  match a with
  | Some s => if String.eqb s "" then b else s
  | None => b
  end.

(** [s.startswith(p)] *)
Definition startswith (s p : string) : bool := String.prefix p s.

(** ** The handler *)

(** [depth] is the number of nested Python frames the interpreter still
    allows below the caller; entering a function when none is left raises
    [RecursionError].  [send_html_file] calls itself from its own
    exception handler, so this bound is what the recursion descends on. *)
Fixpoint send_html_file (depth : nat) (filename : string) (status : Z) : M unit :=
  match depth with
  | O => raise RecursionError
  | S depth' =>
      send_response status ;;
      send_header "Content-type" "text/html" ;;
      end_headers ;;
      try_except
        (file ← open_rb filename ;
         content ← file_read file ;
         wfile_write content)
        (send_html_file depth' "error.html" 404)
  end.

(** The default of the keyword argument [status]. *)
Definition default_status : Z := 200.

Section Handler.

(** The two standard-library functions the handler calls:
    [urllib.parse.urlparse(s).path] and the first component of
    [mimetypes.guess_type(s)]. *)
Variable urlparse_path : string -> string.
Variable guess_type : string -> option string.

Definition send_static (depth : nat) (self_path : string) : M unit :=
  match depth with
  | O => raise RecursionError
  | S depth' =>
      let file_path := slice_from_1 self_path in
      let mime_type := guess_type file_path in
      try_except
        (file ← open_rb file_path ;
         send_response 200 ;;
         send_header "Content-type" (py_or mime_type "application/octet-stream") ;;
         end_headers ;;
         content ← file_read file ;
         wfile_write content)
        (send_html_file depth' "error.html" 404)
  end.

Definition do_GET (depth : nat) (self_path : string) : M unit :=
  let pr_url_path := urlparse_path self_path in
  if String.eqb pr_url_path "/" then
    send_html_file depth "templates/index.html" default_status
  else if String.eqb pr_url_path "/search" then
    send_html_file depth "templates/search.html" default_status
  else if startswith pr_url_path "/static/" then
    send_static depth self_path
  else
    send_html_file depth "templates/error.html" default_status.

End Handler.

(** ** The standard-library functions, for concrete requests

    The theorems below hold for every [urlparse_path] and [guess_type].
    To run the handler on a concrete request the two are instantiated:
    [urllib.urlparse_path] follows CPython's [urlsplit] and [urlparse]
    (3.11 to 3.13) for the [path] attribute, on strings for which
    [urlsplit] does not raise [ValueError]; [mimetypes.guess_type] holds
    the four table entries the comments at the top of [main.py] list. *)

Module urllib.

Definition is_c0_control_or_space (c : ascii) : bool :=
  (nat_of_ascii c <=? 32)%nat.

Definition is_unsafe_byte (c : ascii) : bool :=
  (nat_of_ascii c =? 9)%nat || (nat_of_ascii c =? 10)%nat
  || (nat_of_ascii c =? 13)%nat.

Definition is_upper (c : ascii) : bool :=
  (65 <=? nat_of_ascii c)%nat && (nat_of_ascii c <=? 90)%nat.
Definition is_lower (c : ascii) : bool :=
  (97 <=? nat_of_ascii c)%nat && (nat_of_ascii c <=? 122)%nat.
Definition is_digit (c : ascii) : bool :=
  (48 <=? nat_of_ascii c)%nat && (nat_of_ascii c <=? 57)%nat.
Definition is_alpha (c : ascii) : bool := is_upper c || is_lower c.

Definition is_scheme_char (c : ascii) : bool :=
  is_alpha c || is_digit c
  || Ascii.eqb c "+" || Ascii.eqb c "-" || Ascii.eqb c ".".

Definition lower (c : ascii) : ascii :=
  if is_upper c then ascii_of_nat (nat_of_ascii c + 32) else c.

(** [partition_at p l]: the part of [l] before the first element that
    satisfies [p], and what follows that element, if there is one. *)
Fixpoint partition_at (p : ascii -> bool) (l : list ascii)
  : list ascii * option (list ascii) :=
  match l with
  | [] => ([], None)
  | c :: rest =>
      if p c then ([], Some rest)
      else let '(before, after) := partition_at p rest in (c :: before, after)
  end.

Fixpoint lstrip (p : ascii -> bool) (l : list ascii) : list ascii :=
  match l with
  | [] => []
  | c :: rest => if p c then lstrip p rest else l
  end.

(** The strings [urlparse] accepts a [;params] part for. *)
Definition uses_params : list string :=
  [""; "ftp"; "hdl"; "prospero"; "http"; "imap"; "https"; "shttp"; "rtsp";
   "rtspu"; "sip"; "sips"; "mms"; "sftp"; "tel"].

(** [urlsplit]: the scheme and the path. *)
Definition urlsplit (url : list ascii) : list ascii * list ascii :=
  let url := lstrip is_c0_control_or_space url in
  let url := List.filter (fun c => negb (is_unsafe_byte c)) url in
  let '(scheme, url) :=
    match partition_at (fun c => Ascii.eqb c ":") url with
    | (c :: before, Some after) =>
        if is_alpha c && forallb is_scheme_char (c :: before)
        then (List.map lower (c :: before), after)
        else ([], url)
    | _ => ([], url)
    end in
  let url :=
    match url with
    | "/"%char :: "/"%char :: rest =>
        lstrip (fun c => negb (Ascii.eqb c "/" || Ascii.eqb c "?"
                               || Ascii.eqb c "#")) rest
    | _ => url
    end in
  let url := fst (partition_at (fun c => Ascii.eqb c "#") url) in
  let url := fst (partition_at (fun c => Ascii.eqb c "?") url) in
  (scheme, url).

(** [_splitparams], first component: the [;params] of the last segment
    are cut off. *)
Definition splitparams (url : list ascii) : list ascii :=
  match partition_at (fun c => Ascii.eqb c "/") (List.rev url) with
  | (last_rev, Some front_rev) =>
      List.rev front_rev ++ "/"%char
        :: fst (partition_at (fun c => Ascii.eqb c ";") (List.rev last_rev))
  | (_, None) => fst (partition_at (fun c => Ascii.eqb c ";") url)
  end.

Definition urlparse_path (url : string) : string :=
  let '(scheme, path) := urlsplit (list_ascii_of_string url) in
  string_of_list_ascii
    (if existsb (String.eqb (string_of_list_ascii scheme)) uses_params
     then splitparams path
     else path).

End urllib.

Module mimetypes.

(** [s.endswith(suffix)] *)
Definition endswith (s suffix : string) : bool :=
  let n := String.length s in
  let k := String.length suffix in
  (k <=? n)%nat && String.eqb (String.substring (n - k) k s) suffix.

Definition guess_type (name : string) : option string :=
  if endswith name ".html" then Some "text/html"
  else if endswith name ".css" then Some "text/css"
  else if endswith name ".jpg" then Some "image/jpeg"
  else if endswith name ".js" then Some "application/javascript"
  else None.

End mimetypes.

(** The handler with the two library functions plugged in. *)
Definition handle : nat -> string -> M unit :=
  do_GET urllib.urlparse_path mimetypes.guess_type.

Definition bytes (s : string) : list byte := list_byte_of_string s.

Definition empty_world (fs : gmap string file) : world := World fs [].

(** ** Vocabulary of the statements *)

(** Whether the [with open(name, 'rb') as file: ... file.read()] block can
    get the bytes of [name]. *)
Definition can_read (fs : gmap string file) (name : string) : bool :=
  match fs !! name with
  | Some (Readable _) => true
  | _ => false
  end.

(** The codes of the status lines in a log, in order. *)
Definition status_lines (t : list event) : list Z :=
  omap (fun e => match e with SendResponse c => Some c | _ => None end) t.

(** The names passed to [open], in order. *)
Definition opened (t : list event) : list string :=
  omap (fun e => match e with Open n => Some n | _ => None end) t.

(** The calls made on the connection: the log without the file-system
    events. *)
Definition wire (t : list event) : list event :=
  List.filter (fun e => match e with Open _ => false | _ => true end) t.

(** One full response: a status line, one [Content-type] header, the end
    of the headers, a body, and nothing else. *)
Definition one_response (t : list event) : bool :=
  match wire t with
  | [SendResponse _; SendHeader keyword _; EndHeaders; WfileWrite _] =>
      String.eqb keyword "Content-type"
  | _ => false
  end.

(** The header block [send_html_file] writes before it touches the file. *)
Definition html_headers (status : Z) : list event :=
  [SendResponse status; SendHeader "Content-type" "text/html"; EndHeaders].

(** What [n] nested runs of the fallback leave in the log when
    [error.html] cannot be read. *)
Fixpoint retries (n : nat) : list event :=
  match n with
  | O => []
  | S n' => html_headers 404 ++ Open "error.html" :: retries n'
  end.

(** Lexical resolution of a relative path, as [os.path.normpath] does it:
    empty and [.] segments vanish, [..] cancels the segment before it.
    The handler never calls it; it only says where an opened name points. *)
Fixpoint segments (l cur : list ascii) : list string :=
  match l with
  | [] => [string_of_list_ascii (List.rev cur)]
  | c :: rest =>
      if Ascii.eqb c "/"
      then string_of_list_ascii (List.rev cur) :: segments rest []
      else segments rest (c :: cur)
  end.

Fixpoint resolve (segs stack : list string) : list string :=
  match segs with
  | [] => List.rev stack
  | s :: rest =>
      if String.eqb s "" || String.eqb s "." then resolve rest stack
      else if String.eqb s ".." then
        match stack with
        | [] => resolve rest [".."]
        | top :: below =>
            if String.eqb top ".." then resolve rest (s :: stack)
            else resolve rest below
        end
      else resolve rest (s :: stack)
  end.

Definition normpath (p : string) : list string :=
  resolve (segments (list_ascii_of_string p) []) [].

Definition under_static_tree (p : string) : bool :=
  match normpath p with
  | "static" :: _ => true
  | _ => false
  end.

(** ** Files for concrete requests *)

(** The files the routes of [do_GET] name, and one static asset. *)
Definition project_files : gmap string file :=
  {[ "templates/index.html" := Readable (bytes "<h1>home</h1>");
     "templates/search.html" := Readable (bytes "<h1>search</h1>");
     "templates/error.html" := Readable (bytes "<h1>not found</h1>");
     "static/style.css" := Readable (bytes "body{}") ]}.

(** The same with the file the fallback names, next to [templates/]. *)
Definition project_files_with_root_error_page : gmap string file :=
  <[ "error.html" := Readable (bytes "<h1>root error</h1>") ]> project_files.

(** ** More vocabulary: what a request leaves in the log *)

(** The bodies written, in order. *)
Definition bodies (t : list event) : list (list byte) :=
  omap (fun e => match e with WfileWrite d => Some d | _ => None end) t.

(** A run of header blocks of calls, each a [send_response], one
    [send_header] for [Content-type] with a non-empty value and an
    [end_headers], closed by at most one [wfile.write].  It is the calls
    of the handler that are counted: what [send_response] itself adds on
    the connection is the base class's business. *)
Fixpoint header_blocks_then_body (t : list event) : bool :=
  match t with
  | [] => true
  | [WfileWrite _] => true
  | SendResponse _ :: SendHeader keyword value :: EndHeaders :: rest =>
      String.eqb keyword "Content-type" && negb (String.eqb value "")
      && header_blocks_then_body rest
  | _ => false
  end.

(** What the call [send_html_file('error.html', 404)] of the two [except]
    blocks appends and how it ends, with [depth] frames left. *)
Definition fallback_tail (fs : gmap string file) (depth : nat)
  : list event * outcome unit :=
  match depth with
  | O => ([], Raised RecursionError)
  | S _ =>
      match fs !! "error.html" with
      | Some (Readable page) =>
          (html_headers 404 ++ [Open "error.html"; WfileWrite page],
           Returned tt)
      | _ => (retries depth, Raised RecursionError)
      end
  end.

(** One attempt at the file [f] followed, when it fails, by the fallback:
    [before] is what the method sends before [open], [after] what it sends
    between [open] and [read]. *)
Definition attempt (fs : gmap string file) (depth : nat)
    (before after : list event) (f : string) : list event * outcome unit :=
  match fs !! f with
  | Some (Readable content) =>
      (before ++ Open f :: after ++ [WfileWrite content], Returned tt)
  | Some Unreadable =>
      (before ++ Open f :: after ++ (fallback_tail fs depth).1,
       (fallback_tail fs depth).2)
  | None =>
      (before ++ Open f :: (fallback_tail fs depth).1,
       (fallback_tail fs depth).2)
  end.

(** The header block of [send_static]. *)
Definition static_headers (content_type : string) : list event :=
  [SendResponse 200; SendHeader "Content-type" content_type; EndHeaders].

(** The file a request is routed to. *)
Definition route_file (urlparse_path : string -> string) (self_path : string)
  : string :=
  if String.eqb (urlparse_path self_path) "/" then "templates/index.html"
  else if String.eqb (urlparse_path self_path) "/search"
       then "templates/search.html"
  else if startswith (urlparse_path self_path) "/static/"
       then slice_from_1 self_path
  else "templates/error.html".

(** What [do_GET] appends for a request and how it ends, with [depth]
    frames left below the method it calls: the static route opens first
    and sends its headers after, the page routes do it the other way. *)
Definition response (urlparse_path : string -> string)
    (guess_type : string -> option string) (depth : nat)
    (fs : gmap string file) (self_path : string)
  : list event * outcome unit :=
  let f := route_file urlparse_path self_path in
  if startswith (urlparse_path self_path) "/static/" then
    attempt fs depth []
      (static_headers (py_or (guess_type f) "application/octet-stream")) f
  else
    attempt fs depth (html_headers default_status) [] f.

(** ** The server life cycle, [run]

    [run] is embedded over its own log: the calls on the server object and
    the lines printed.  What the server class does is a parameter, as it
    is a parameter of [run]: whether the constructor and [serve_forever]
    return or raise.  [KeyboardInterrupt] is not an [Exception]; the other
    things that can be raised are. *)

Inductive raised : Type :=
| KeyboardInterrupt
| Error (e : exn).

Inductive ending (A : Type) : Type :=
| Finished (a : A)
| Propagated (r : raised).
Arguments Finished {A} a.
Arguments Propagated {A} r.

Inductive run_event : Type :=
| Construct (host : string) (port : Z)
| Print (text : string)
| ServeForever
| ServerClose.

(** [None]: the call returns. *)
Record server_class : Type := ServerClass {
  init_result : option raised;
  serve_forever_result : option raised;
}.

Definition P (A : Type) : Type := list run_event -> list run_event * ending A.

#[global] Instance P_ret : MRet P := fun A a l => (l, Finished a).

#[global] Instance P_bind : MBind P := fun A B k m l =>
  match m l with
  | (l1, Finished a) => k a l1
  | (l1, Propagated r) => (l1, Propagated r)
  end.

Definition call (e : run_event) (result : option raised) : P unit := fun l =>
  match result with
  | None => (l ++ [e], Finished tt)
  | Some r => (l ++ [e], Propagated r)
  end.

Definition print (text : string) : P unit := call (Print text) None.

(** [try: body except KeyboardInterrupt: handler finally: cleanup].  An
    exception that leaves [cleanup] replaces the one that was on its way. *)
Definition try_except_KeyboardInterrupt_finally (body handler cleanup : P unit)
  : P unit := fun l =>
  match body l with
  | (l1, Finished tt) => cleanup l1
  | (l1, Propagated KeyboardInterrupt) =>
      match handler l1 with
      | (l2, Finished tt) => cleanup l2
      | (l2, Propagated r) =>
          match cleanup l2 with
          | (l3, Finished tt) => (l3, Propagated r)
          | (l3, Propagated r') => (l3, Propagated r')
          end
      end
  | (l1, Propagated (Error e)) =>
      match cleanup l1 with
      | (l2, Finished tt) => (l2, Propagated (Error e))
      | (l2, Propagated r') => (l2, Propagated r')
      end
  end.

Definition newline : string := String (ascii_of_nat 10) EmptyString.

Definition run (sc : server_class) : P unit :=
  let port := 8080 in
  let server_address := (EmptyString, port) in
  call (Construct server_address.1 server_address.2) (init_result sc) ;;
  print ("Сервер запущено на http://localhost:" +:+ pretty port) ;;
  print "Натисніть Ctrl+C для зупинки сервера" ;;
  try_except_KeyboardInterrupt_finally
    (call ServeForever (serve_forever_result sc))
    (print (newline +:+ "Зупиняємо сервер ..."))
    (call ServerClose None ;;
     print "Сервер успішно зупинено").

(** ** Tactics for running the monad *)

Ltac run_step :=
  repeat progress
    (unfold mbind, M_bind, mret, M_ret, try_except, send_response,
       send_header, end_headers, wfile_write, emit, open_rb, file_read, raise;
     cbn [files extend log]).

Ltac close_run :=
  unfold extend, html_headers; cbn [files log retries];
  rewrite <- ?app_assoc; cbn [app]; try reflexivity.

(** ** The library model on sample request targets *)

Example urlparse_examples :
  List.map urllib.urlparse_path
    ["/"; "/search"; "/search?name=query"; "/static/style.css";
     "/static/style.css?v=1"; "/nope#top"; "/a/b;x=1/c;y=2";
     "http://www.example.com/search?name=query"; "//host/p"; "/static/../x"]
  = ["/"; "/search"; "/search"; "/static/style.css";
     "/static/style.css"; "/nope"; "/a/b;x=1/c";
     "/search"; "/p"; "/static/../x"].
Proof. reflexivity. Qed.

(** ** Running the monad *)

Lemma files_extend (w : world) (t : list event) : files (w <+ t) = files w.
Proof. reflexivity. Qed.

Lemma extend_extend (w : world) (t u : list event) :
  w <+ t <+ u = w <+ (t ++ u).
Proof. unfold extend; simpl. by rewrite <- app_assoc. Qed.

Lemma can_read_false (fs : gmap string file) (name : string) :
  can_read fs name = false ->
  fs !! name = None \/ fs !! name = Some Unreadable.
Proof.
  unfold can_read. destruct (fs !! name) as [[content|]|]; auto; discriminate.
Qed.

(** ** [send_html_file] *)

Lemma send_html_file_ok (depth : nat) (filename : string) (status : Z)
    (w : world) (content : list byte) :
  files w !! filename = Some (Readable content) ->
  send_html_file (S depth) filename status w
  = (w <+ (html_headers status ++ [Open filename; WfileWrite content]),
     Returned tt).
Proof.
  intros Hfile. cbn [send_html_file]. run_step. rewrite Hfile. close_run.
Qed.

(** When the file cannot be read, the headers for [status] are already in
    the log and the handler starts over with [error.html] and 404. *)
Lemma send_html_file_fallback (depth : nat) (filename : string) (status : Z)
    (w : world) :
  can_read (files w) filename = false ->
  send_html_file (S depth) filename status w
  = send_html_file depth "error.html" 404
      (w <+ (html_headers status ++ [Open filename])).
Proof.
  intros Hfile. cbn [send_html_file]. run_step.
  destruct (can_read_false _ _ Hfile) as [-> | ->];
    (f_equal; close_run).
Qed.

(** With [error.html] unreadable the fallback re-enters itself until no
    frame is left. *)
Lemma send_html_file_error_page_unreadable (depth : nat) (w : world) :
  can_read (files w) "error.html" = false ->
  send_html_file depth "error.html" 404 w
  = (w <+ retries depth, Raised RecursionError).
Proof.
  revert w. induction depth as [|depth IH]; intros w Hfile.
  - cbn. unfold raise, extend. rewrite app_nil_r. by destruct w.
  - rewrite send_html_file_fallback by exact Hfile.
    rewrite IH by exact Hfile. rewrite extend_extend. f_equal; close_run.
Qed.

(** The handler only appends to the log, and what it appends depends on
    the files alone. *)
Lemma send_html_file_frame (depth : nat) (fs : gmap string file) :
  forall (filename : string) (status : Z),
  exists (t : list event) (r : outcome unit),
    forall l : list event,
      send_html_file depth filename status (World fs l) = (World fs (l ++ t), r).
Proof.
  induction depth as [|depth IH]; intros filename status.
  - exists [], (Raised RecursionError). intros l. cbn. unfold raise.
    by rewrite app_nil_r.
  - destruct (fs !! filename) as [[content|]|] eqn:Hfile.
    + exists (html_headers status ++ [Open filename; WfileWrite content]),
        (Returned tt).
      intros l. by rewrite (send_html_file_ok _ _ _ (World fs l) content).
    + destruct (IH "error.html" 404) as (t & r & Ht).
      exists (html_headers status ++ Open filename :: t), r. intros l.
      rewrite send_html_file_fallback by (unfold can_read; cbn; by rewrite Hfile).
      unfold extend; cbn [files log]. rewrite Ht. f_equal. f_equal.
      rewrite <- !app_assoc. reflexivity.
    + destruct (IH "error.html" 404) as (t & r & Ht).
      exists (html_headers status ++ Open filename :: t), r. intros l.
      rewrite send_html_file_fallback by (unfold can_read; cbn; by rewrite Hfile).
      unfold extend; cbn [files log]. rewrite Ht. f_equal. f_equal.
      rewrite <- !app_assoc. reflexivity.
Qed.

(** When the file of the route can be read, [send_html_file] writes one
    response. *)
Lemma send_html_file_one_response (depth : nat) (filename : string)
    (status : Z) (w : world) (content : list byte) :
  files w !! filename = Some (Readable content) ->
  exists t : list event,
    send_html_file (S depth) filename status w = (w <+ t, Returned tt)
    /\ one_response t = true.
Proof.
  intros Hfile. eexists. split; [exact (send_html_file_ok _ _ _ w content Hfile)|].
  reflexivity.
Qed.

Lemma opened_app (t u : list event) : opened (t ++ u) = opened t ++ opened u.
Proof. unfold opened. apply omap_app. Qed.

(** Once the fallback has started, [error.html] is the only name opened,
    and it is opened at least once. *)
Lemma send_html_file_error_page_opens (depth : nat) :
  forall w : world,
  exists k : nat,
    opened (log (send_html_file (S depth) "error.html" 404 w).1)
    = opened (log w) ++ repeat "error.html" (S k).
Proof.
  induction depth as [|depth IH]; intros w.
  - exists 0%nat. cbn [send_html_file]. run_step.
    destruct (files w !! "error.html") as [[content|]|];
      cbn; rewrite <- ?app_assoc, !opened_app; reflexivity.
  - destruct (can_read (files w) "error.html") eqn:Hfile.
    + exists 0%nat. unfold can_read in Hfile.
      destruct (files w !! "error.html") as [[content|]|] eqn:Hlook;
        try discriminate.
      rewrite (send_html_file_ok _ _ _ w content Hlook).
      cbn. rewrite !opened_app. reflexivity.
    + rewrite send_html_file_fallback by exact Hfile.
      destruct (IH (w <+ (html_headers 404 ++ [Open "error.html"]))) as [k Hk].
      exists (S k). rewrite Hk. cbn [extend log]. rewrite opened_app.
      rewrite <- app_assoc. reflexivity.
Qed.

Section Properties.

Variable urlparse_path : string -> string.
Variable guess_type : string -> option string.

(** ** [send_static] *)

Lemma send_static_ok (depth : nat) (self_path : string) (w : world)
    (content : list byte) :
  files w !! slice_from_1 self_path = Some (Readable content) ->
  send_static guess_type (S depth) self_path w
  = (w <+ [Open (slice_from_1 self_path); SendResponse 200;
           SendHeader "Content-type"
             (py_or (guess_type (slice_from_1 self_path))
                    "application/octet-stream");
           EndHeaders; WfileWrite content], Returned tt).
Proof.
  intros Hfile. cbn [send_static]. run_step. rewrite Hfile. close_run.
Qed.

(** [open] raises before anything was sent. *)
Lemma send_static_missing (depth : nat) (self_path : string) (w : world) :
  files w !! slice_from_1 self_path = None ->
  send_static guess_type (S depth) self_path w
  = send_html_file depth "error.html" 404
      (w <+ [Open (slice_from_1 self_path)]).
Proof.
  intros Hfile. cbn [send_static]. run_step. rewrite Hfile. reflexivity.
Qed.

(** [read] raises after the 200 headers went out. *)
Lemma send_static_read_fails (depth : nat) (self_path : string) (w : world) :
  files w !! slice_from_1 self_path = Some Unreadable ->
  send_static guess_type (S depth) self_path w
  = send_html_file depth "error.html" 404
      (w <+ [Open (slice_from_1 self_path); SendResponse 200;
             SendHeader "Content-type"
               (py_or (guess_type (slice_from_1 self_path))
                      "application/octet-stream");
             EndHeaders]).
Proof.
  intros Hfile. cbn [send_static]. run_step. rewrite Hfile.
  f_equal; close_run.
Qed.

(** The part of the failure policy that holds: a static file that cannot
    be opened, with [error.html] in place, gives one response, status 404,
    [text/html], the bytes of [error.html]. *)
Lemma send_static_missing_answers_404 (depth : nat) (self_path : string)
    (w : world) (page : list byte) :
  files w !! slice_from_1 self_path = None ->
  files w !! "error.html" = Some (Readable page) ->
  send_static guess_type (S (S depth)) self_path w
  = (w <+ [Open (slice_from_1 self_path); SendResponse 404;
           SendHeader "Content-type" "text/html"; EndHeaders;
           Open "error.html"; WfileWrite page], Returned tt).
Proof.
  intros Hfile Hpage. rewrite send_static_missing by exact Hfile.
  rewrite (send_html_file_ok depth "error.html" 404 _ page) by exact Hpage.
  rewrite extend_extend. reflexivity.
Qed.

(** ** [do_GET] *)

Lemma static_prefix_not_page (p : string) :
  startswith p "/static/" = true ->
  String.eqb p "/" = false /\ String.eqb p "/search" = false.
Proof.
  intros Hp. split; apply String.eqb_neq; intros ->; discriminate Hp.
Qed.

(** The routes other than [/static/] look at the parsed path only. *)
Lemma do_GET_page_routes_parsed_path_only (depth : nat) (p q : string)
    (w : world) :
  urlparse_path p = urlparse_path q ->
  startswith (urlparse_path p) "/static/" = false ->
  do_GET urlparse_path guess_type depth p w
  = do_GET urlparse_path guess_type depth q w.
Proof.
  intros Hpq Hstatic. unfold do_GET. rewrite <- Hpq, Hstatic. reflexivity.
Qed.

(** C2.  A request whose parsed path is neither [/] nor [/search] and does
    not start with [/static/] is answered, when [templates/error.html] can
    be read, with status 200, the header [Content-type: text/html] and the
    bytes of that file. *)
Theorem unmatched_route_serves_error_page (depth : nat) (self_path : string)
    (w : world) (content : list byte) :
  urlparse_path self_path <> "/" ->
  urlparse_path self_path <> "/search" ->
  startswith (urlparse_path self_path) "/static/" = false ->
  files w !! "templates/error.html" = Some (Readable content) ->
  do_GET urlparse_path guess_type (S depth) self_path w
  = (w <+ [SendResponse 200; SendHeader "Content-type" "text/html";
           EndHeaders; Open "templates/error.html"; WfileWrite content],
     Returned tt).
Proof.
  intros Hhome Hsearch Hstatic Hfile. unfold do_GET.
  apply String.eqb_neq in Hhome, Hsearch.
  rewrite Hhome, Hsearch, Hstatic.
  exact (send_html_file_ok depth _ default_status w content Hfile).
Qed.

(** C8.  When the parsed path is [/] and [templates/index.html] can be
    read, the answer is status 200, [Content-type: text/html] and that
    file's bytes; likewise [/search] and [templates/search.html]. *)
Theorem home_and_search_pages_served (depth : nat) (self_path : string)
    (w : world) (content : list byte) :
  (urlparse_path self_path = "/" ->
   files w !! "templates/index.html" = Some (Readable content) ->
   do_GET urlparse_path guess_type (S depth) self_path w
   = (w <+ [SendResponse 200; SendHeader "Content-type" "text/html";
            EndHeaders; Open "templates/index.html"; WfileWrite content],
      Returned tt))
  /\
  (urlparse_path self_path = "/search" ->
   files w !! "templates/search.html" = Some (Readable content) ->
   do_GET urlparse_path guess_type (S depth) self_path w
   = (w <+ [SendResponse 200; SendHeader "Content-type" "text/html";
            EndHeaders; Open "templates/search.html"; WfileWrite content],
      Returned tt)).
Proof.
  split; intros Hpath Hfile; unfold do_GET; rewrite Hpath; cbn [String.eqb].
  - exact (send_html_file_ok depth _ default_status w content Hfile).
  - exact (send_html_file_ok depth _ default_status w content Hfile).
Qed.

(** C3.  A request that is routed to the static branch and whose file, the
    request path without its leading slash, can be opened and read is
    answered with status 200, that file's bytes and one [Content-type]
    header; its value is what the extension table gives for the file and
    [application/octet-stream] when the table has no entry. *)
Theorem static_file_served (depth : nat) (self_path : string) (w : world)
    (content : list byte) :
  startswith (urlparse_path self_path) "/static/" = true ->
  files w !! slice_from_1 self_path = Some (Readable content) ->
  exists content_type : string,
    do_GET urlparse_path guess_type (S depth) self_path w
    = (w <+ [Open (slice_from_1 self_path); SendResponse 200;
             SendHeader "Content-type" content_type; EndHeaders;
             WfileWrite content], Returned tt)
    /\ (forall mime : string,
          guess_type (slice_from_1 self_path) = Some mime -> mime <> "" ->
          content_type = mime)
    /\ (guess_type (slice_from_1 self_path) = None ->
        content_type = "application/octet-stream").
Proof.
  intros Hstatic Hfile.
  exists (py_or (guess_type (slice_from_1 self_path))
                "application/octet-stream").
  split; [|split].
  - unfold do_GET.
    destruct (static_prefix_not_page _ Hstatic) as [-> ->]. rewrite Hstatic.
    exact (send_static_ok depth self_path w content Hfile).
  - intros mime -> Hmime. cbn. apply String.eqb_neq in Hmime.
    by rewrite Hmime.
  - by intros ->.
Qed.

(** C5, amended.  After a failed read both handlers fall back through the
    same call, [send_html_file('error.html', 404)]: from then on
    [error.html] is the only name opened, by [send_html_file] and by
    [send_static] alike. *)
Theorem fallbacks_open_error_html (depth : nat) (filename : string)
    (status : Z) (self_path : string) (w : world) :
  (can_read (files w) filename = false ->
   exists k : nat,
     opened (log (send_html_file (S (S depth)) filename status w).1)
     = opened (log w) ++ filename :: repeat "error.html" (S k))
  /\
  (can_read (files w) (slice_from_1 self_path) = false ->
   exists k : nat,
     opened (log (send_static guess_type (S (S depth)) self_path w).1)
     = opened (log w) ++ slice_from_1 self_path :: repeat "error.html" (S k)).
Proof.
  split; intros Hfile.
  - rewrite send_html_file_fallback by exact Hfile.
    destruct (send_html_file_error_page_opens depth
                (w <+ (html_headers status ++ [Open filename]))) as [k Hk].
    exists k. rewrite Hk. cbn [extend log]. rewrite opened_app.
    rewrite <- app_assoc. reflexivity.
  - destruct (can_read_false _ _ Hfile) as [Hlook | Hlook].
    + rewrite send_static_missing by exact Hlook.
      destruct (send_html_file_error_page_opens depth
                  (w <+ [Open (slice_from_1 self_path)])) as [k Hk].
      exists k. rewrite Hk. cbn [extend log]. rewrite opened_app.
      rewrite <- app_assoc. reflexivity.
    + rewrite send_static_read_fails by exact Hlook.
      match goal with
      | |- context [send_html_file _ _ _ ?w'] =>
          destruct (send_html_file_error_page_opens depth w') as [k Hk]
      end.
      exists k. rewrite Hk. cbn [extend log]. rewrite opened_app.
      rewrite <- app_assoc. reflexivity.
Qed.

(** C10.  [send_static] opens the request string minus its leading slash,
    whatever it contains: nothing is normalised or checked.  So a request
    such as [/static/../x] passes the [/static/] test and is answered with
    the bytes of a file that resolves outside the [static/] tree. *)
Theorem send_static_leaves_static_tree :
  (forall (depth : nat) (self_path : string) (w : world),
     exists (t : list event) (r : outcome unit),
       send_static guess_type (S depth) self_path w
       = (w <+ (Open (slice_from_1 self_path) :: t), r))
  /\
  (exists self_path : string,
     startswith self_path "/static/" = true
     /\ startswith (urllib.urlparse_path self_path) "/static/" = true
     /\ normpath (slice_from_1 self_path) = ["x"]
     /\ under_static_tree (slice_from_1 self_path) = false
     /\ forall (depth : nat) (w : world) (content : list byte),
          files w !! slice_from_1 self_path = Some (Readable content) ->
          send_static guess_type (S depth) self_path w
          = (w <+ [Open (slice_from_1 self_path); SendResponse 200;
                   SendHeader "Content-type"
                     (py_or (guess_type (slice_from_1 self_path))
                            "application/octet-stream");
                   EndHeaders; WfileWrite content], Returned tt)).
Proof.
  split.
  - intros depth self_path w.
    destruct (files w !! slice_from_1 self_path) as [[content|]|] eqn:Hfile.
    + eexists _, _. by rewrite (send_static_ok _ _ w content Hfile).
    + rewrite send_static_read_fails by exact Hfile.
      match goal with
      | |- context [send_html_file ?d ?f ?s (w <+ ?u)] =>
          destruct (send_html_file_frame d (files w) f s) as (t & r & Ht);
          exists (tl u ++ t), r
      end.
      unfold extend; cbn [files log tl]. rewrite Ht, <- app_assoc.
      reflexivity.
    + rewrite send_static_missing by exact Hfile.
      destruct (send_html_file_frame depth (files w) "error.html" 404)
        as (t & r & Ht).
      exists t, r. unfold extend; cbn [files log]. rewrite Ht, <- app_assoc.
      reflexivity.
  - exists "/static/../x". repeat split.
    intros depth w content Hfile. exact (send_static_ok depth _ w content Hfile).
Qed.

End Properties.

Lemma do_GET_static_route (urlparse_path : string -> string)
    (guess_type : string -> option string) (depth : nat) (self_path : string) :
  startswith (urlparse_path self_path) "/static/" = true ->
  do_GET urlparse_path guess_type depth self_path
  = send_static guess_type depth self_path.
Proof.
  intros Hstatic. unfold do_GET.
  destruct (static_prefix_not_page _ Hstatic) as [-> ->].
  by rewrite Hstatic.
Qed.

(** ** Concrete requests *)

Lemma opened_retries (n : nat) : opened (retries n) = repeat "error.html" n.
Proof. induction n as [|n IH]; [reflexivity|]. cbn. by rewrite <- IH. Qed.

(** C1.  [/] with [templates/index.html] missing and both error pages in
    place: the 200 status line and its headers are in the log before the
    file is opened, the 404 block and the page follow them, so the status
    of the response is 200. *)
Theorem home_page_missing_answers_200_then_404 :
  let w := empty_world
             (delete "templates/index.html" project_files_with_root_error_page) in
  log (handle 8 "/" w).1
  = [SendResponse 200; SendHeader "Content-type" "text/html"; EndHeaders;
     Open "templates/index.html";
     SendResponse 404; SendHeader "Content-type" "text/html"; EndHeaders;
     Open "error.html"; WfileWrite (bytes "<h1>root error</h1>")]
  /\ (handle 8 "/" w).2 = Returned tt
  /\ head (status_lines (log (handle 8 "/" w).1)) = Some 200.
Proof. vm_compute. repeat split. Qed.

(** C4.  [/search] with [templates/search.html] missing: two status lines
    and two header blocks are written for the one request. *)
Theorem search_page_missing_writes_two_header_blocks :
  let w := empty_world
             (delete "templates/search.html" project_files_with_root_error_page) in
  status_lines (log (handle 8 "/search" w).1) = [200; 404]
  /\ one_response (log (handle 8 "/search" w).1) = false
  /\ List.filter (fun e => match e with EndHeaders => true | _ => false end)
       (log (handle 8 "/search" w).1) = [EndHeaders; EndHeaders]
  /\ (handle 8 "/search" w).2 = Returned tt.
Proof. vm_compute. repeat split. Qed.

(** C5, as stated, fails: the fallback of [send_static] opens
    [error.html], the file the fallback of [send_html_file] opens, and
    never [templates/error.html]. *)
Lemma static_fallback_opens_root_error_page :
  let w := empty_world project_files_with_root_error_page in
  let w' := empty_world
              (delete "templates/index.html" project_files_with_root_error_page) in
  opened (log (handle 8 "/static/missing.css" w).1)
  = ["static/missing.css"; "error.html"]
  /\ opened (log (handle 8 "/" w').1) = ["templates/index.html"; "error.html"]
  /\ ~ In "templates/error.html"
         (opened (log (handle 8 "/static/missing.css" w).1)).
Proof.
  vm_compute. repeat split. intros [H | [H | []]]; discriminate H.
Qed.

(** C6.  Two request targets with the same path and different queries:
    the one without query is served the stylesheet, the one with a query
    makes [send_static] open a name that includes the query and falls
    back to the 404 page. *)
Theorem static_route_depends_on_query :
  let w := empty_world project_files_with_root_error_page in
  urllib.urlparse_path "/static/style.css?v=1"
  = urllib.urlparse_path "/static/style.css"
  /\ log (handle 8 "/static/style.css" w).1
     = [Open "static/style.css"; SendResponse 200;
        SendHeader "Content-type" "text/css"; EndHeaders;
        WfileWrite (bytes "body{}")]
  /\ log (handle 8 "/static/style.css?v=1" w).1
     = [Open "static/style.css?v=1"; SendResponse 404;
        SendHeader "Content-type" "text/html"; EndHeaders;
        Open "error.html"; WfileWrite (bytes "<h1>root error</h1>")].
Proof. vm_compute. repeat split. Qed.

(** C7.  [/static/missing.css] with the files of the routes in place and
    no [error.html] next to them: the fallback is entered again at every
    level, each time writing a 404 header block and opening [error.html],
    and whatever the number of frames allowed the call ends in
    [RecursionError]. *)
Theorem error_page_missing_recurses_to_the_limit (depth : nat) :
  handle (S depth) "/static/missing.css" (empty_world project_files)
  = (empty_world project_files <+ (Open "static/missing.css" :: retries depth),
     Raised RecursionError)
  /\ opened (Open "static/missing.css" :: retries depth)
     = "static/missing.css" :: repeat "error.html" depth
  /\ status_lines (retries depth) = repeat 404 depth.
Proof.
  split; [|split].
  - unfold handle. rewrite do_GET_static_route by (vm_compute; reflexivity).
    rewrite send_static_missing by (vm_compute; reflexivity).
    rewrite send_html_file_error_page_unreadable by (vm_compute; reflexivity).
    rewrite extend_extend. reflexivity.
  - cbn. by rewrite opened_retries.
  - induction depth as [|depth IH]; [reflexivity|]. cbn. by rewrite <- IH.
Qed.

(** ** The general theorems at concrete requests *)

Lemma unmatched_route_witness :
  urllib.urlparse_path "/nope" <> "/"
  /\ urllib.urlparse_path "/nope" <> "/search"
  /\ startswith (urllib.urlparse_path "/nope") "/static/" = false
  /\ files (empty_world project_files) !! "templates/error.html"
     = Some (Readable (bytes "<h1>not found</h1>"))
  /\ handle 1 "/nope" (empty_world project_files)
     = (empty_world project_files
        <+ [SendResponse 200; SendHeader "Content-type" "text/html";
            EndHeaders; Open "templates/error.html";
            WfileWrite (bytes "<h1>not found</h1>")],
        Returned tt).
Proof.
  split; [vm_compute; discriminate|].
  split; [vm_compute; discriminate|].
  split; [reflexivity|].
  split; [reflexivity|].
  apply (unmatched_route_serves_error_page urllib.urlparse_path
           mimetypes.guess_type 0 "/nope" (empty_world project_files)
           (bytes "<h1>not found</h1>")).
  - vm_compute; discriminate.
  - vm_compute; discriminate.
  - reflexivity.
  - reflexivity.
Defined.

Lemma home_and_search_witness :
  handle 1 "/" (empty_world project_files)
  = (empty_world project_files
     <+ [SendResponse 200; SendHeader "Content-type" "text/html";
         EndHeaders; Open "templates/index.html";
         WfileWrite (bytes "<h1>home</h1>")],
     Returned tt)
  /\ handle 1 "/search?name=query" (empty_world project_files)
     = (empty_world project_files
        <+ [SendResponse 200; SendHeader "Content-type" "text/html";
            EndHeaders; Open "templates/search.html";
            WfileWrite (bytes "<h1>search</h1>")],
        Returned tt).
Proof.
  split.
  - apply (proj1 (home_and_search_pages_served urllib.urlparse_path
                    mimetypes.guess_type 0 "/" (empty_world project_files)
                    (bytes "<h1>home</h1>"))); reflexivity.
  - apply (proj2 (home_and_search_pages_served urllib.urlparse_path
                    mimetypes.guess_type 0 "/search?name=query"
                    (empty_world project_files) (bytes "<h1>search</h1>")));
      reflexivity.
Defined.

Lemma static_file_witness :
  startswith (urllib.urlparse_path "/static/style.css") "/static/" = true
  /\ files (empty_world project_files) !! slice_from_1 "/static/style.css"
     = Some (Readable (bytes "body{}"))
  /\ exists content_type : string,
       handle 1 "/static/style.css" (empty_world project_files)
       = (empty_world project_files
          <+ [Open "static/style.css"; SendResponse 200;
              SendHeader "Content-type" content_type; EndHeaders;
              WfileWrite (bytes "body{}")], Returned tt)
       /\ content_type = "text/css".
Proof.
  split; [reflexivity|]. split; [reflexivity|].
  destruct (static_file_served urllib.urlparse_path mimetypes.guess_type 0
              "/static/style.css" (empty_world project_files) (bytes "body{}")
              eq_refl eq_refl) as (content_type & Hrun & Hknown & _).
  exists content_type. split; [exact Hrun|].
  apply Hknown; [reflexivity | discriminate].
Defined.

Lemma fallbacks_witness :
  let w := empty_world project_files_with_root_error_page in
  can_read (files w) "templates/missing.html" = false
  /\ can_read (files w) (slice_from_1 "/static/missing.css") = false
  /\ (exists k : nat,
        opened (log (send_html_file 2 "templates/missing.html" 200 w).1)
        = opened (log w) ++ "templates/missing.html" :: repeat "error.html" (S k))
  /\ (exists k : nat,
        opened (log (send_static mimetypes.guess_type 2
                       "/static/missing.css" w).1)
        = opened (log w) ++ "static/missing.css" :: repeat "error.html" (S k)).
Proof.
  intros w.
  split; [reflexivity|]. split; [reflexivity|].
  destruct (fallbacks_open_error_html mimetypes.guess_type 0
              "templates/missing.html" 200 "/static/missing.css" w)
    as [Hhtml Hstatic].
  split; [apply Hhtml | apply Hstatic]; reflexivity.
Defined.

(** ** The log of a request, in full *)

Lemma status_lines_retries (n : nat) : status_lines (retries n) = repeat 404 n.
Proof. induction n as [|n IH]; [reflexivity|]. cbn. by rewrite <- IH. Qed.

Lemma bodies_retries (n : nat) : bodies (retries n) = [].
Proof. induction n as [|n IH]; [reflexivity|]. exact IH. Qed.

Lemma status_lines_Open (f : string) (t : list event) :
  status_lines (Open f :: t) = status_lines t.
Proof. reflexivity. Qed.

Lemma status_lines_block (c : Z) (v : string) (t : list event) :
  status_lines (SendResponse c :: SendHeader "Content-type" v :: EndHeaders :: t)
  = c :: status_lines t.
Proof. reflexivity. Qed.

Lemma status_lines_body (d : list byte) : status_lines [WfileWrite d] = [].
Proof. reflexivity. Qed.

Lemma opened_Open (f : string) (t : list event) :
  opened (Open f :: t) = f :: opened t.
Proof. reflexivity. Qed.

Lemma opened_block (c : Z) (v : string) (t : list event) :
  opened (SendResponse c :: SendHeader "Content-type" v :: EndHeaders :: t)
  = opened t.
Proof. reflexivity. Qed.

Lemma bodies_Open (f : string) (t : list event) :
  bodies (Open f :: t) = bodies t.
Proof. reflexivity. Qed.

Lemma bodies_block (c : Z) (v : string) (t : list event) :
  bodies (SendResponse c :: SendHeader "Content-type" v :: EndHeaders :: t)
  = bodies t.
Proof. reflexivity. Qed.

Lemma wire_Open (f : string) (t : list event) : wire (Open f :: t) = wire t.
Proof. reflexivity. Qed.

Lemma wire_block (c : Z) (v : string) (t : list event) :
  wire (SendResponse c :: SendHeader "Content-type" v :: EndHeaders :: t)
  = SendResponse c :: SendHeader "Content-type" v :: EndHeaders :: wire t.
Proof. reflexivity. Qed.

Lemma header_blocks_block (c : Z) (v : string) (t : list event) :
  v <> "" ->
  header_blocks_then_body
    (SendResponse c :: SendHeader "Content-type" v :: EndHeaders :: t)
  = header_blocks_then_body t.
Proof.
  intros Hv. apply String.eqb_neq in Hv. cbn [header_blocks_then_body].
  by rewrite Hv.
Qed.

Lemma header_blocks_retries_only (n : nat) :
  header_blocks_then_body (wire (retries n)) = true.
Proof. induction n as [|n IH]; [reflexivity|]. exact IH. Qed.

Lemma py_or_nonempty (a : option string) (b : string) :
  b <> "" -> py_or a b <> "".
Proof.
  intros Hb. unfold py_or. destruct a as [s|]; [|exact Hb].
  destruct (String.eqb_spec s ""); [exact Hb | assumption].
Qed.

Lemma fallback_run (depth : nat) (w : world) :
  send_html_file depth "error.html" 404 w
  = (w <+ (fallback_tail (files w) depth).1, (fallback_tail (files w) depth).2).
Proof.
  destruct depth as [|depth].
  - cbn. unfold raise, extend. rewrite app_nil_r. by destruct w.
  - unfold fallback_tail.
    destruct (files w !! "error.html") as [[page|]|] eqn:Hpage.
    + exact (send_html_file_ok depth _ _ w page Hpage).
    + apply send_html_file_error_page_unreadable.
      unfold can_read. by rewrite Hpage.
    + apply send_html_file_error_page_unreadable.
      unfold can_read. by rewrite Hpage.
Qed.

Lemma send_html_file_run (depth : nat) (filename : string) (status : Z)
    (w : world) :
  send_html_file (S depth) filename status w
  = (w <+ (attempt (files w) depth (html_headers status) [] filename).1,
     (attempt (files w) depth (html_headers status) [] filename).2).
Proof.
  unfold attempt.
  destruct (files w !! filename) as [[content|]|] eqn:Hfile.
  - exact (send_html_file_ok depth _ _ w content Hfile).
  - rewrite send_html_file_fallback by (unfold can_read; by rewrite Hfile).
    rewrite fallback_run, extend_extend. cbn [fst snd files extend app].
    by rewrite <- app_assoc.
  - rewrite send_html_file_fallback by (unfold can_read; by rewrite Hfile).
    rewrite fallback_run, extend_extend. cbn [fst snd files extend app].
    by rewrite <- app_assoc.
Qed.

Lemma send_static_run (guess_type : string -> option string) (depth : nat)
    (self_path : string) (w : world) :
  let f := slice_from_1 self_path in
  let headers :=
    static_headers (py_or (guess_type f) "application/octet-stream") in
  send_static guess_type (S depth) self_path w
  = (w <+ (attempt (files w) depth [] headers f).1,
     (attempt (files w) depth [] headers f).2).
Proof.
  intros f headers. unfold attempt. fold f.
  destruct (files w !! f) as [[content|]|] eqn:Hfile.
  - exact (send_static_ok guess_type depth self_path w content Hfile).
  - rewrite send_static_read_fails by exact Hfile.
    rewrite fallback_run, extend_extend. reflexivity.
  - rewrite send_static_missing by exact Hfile.
    rewrite fallback_run, extend_extend. reflexivity.
Qed.

Lemma do_GET_run (urlparse_path : string -> string)
    (guess_type : string -> option string) (depth : nat) (self_path : string)
    (w : world) :
  do_GET urlparse_path guess_type (S depth) self_path w
  = (w <+ (response urlparse_path guess_type depth (files w) self_path).1,
     (response urlparse_path guess_type depth (files w) self_path).2).
Proof.
  unfold response, route_file.
  destruct (startswith (urlparse_path self_path) "/static/") eqn:Hstatic.
  - rewrite do_GET_static_route by exact Hstatic.
    destruct (static_prefix_not_page _ Hstatic) as [-> ->].
    apply send_static_run.
  - unfold do_GET. rewrite Hstatic.
    destruct (String.eqb (urlparse_path self_path) "/");
      [apply send_html_file_run|].
    destruct (String.eqb (urlparse_path self_path) "/search");
      apply send_html_file_run.
Qed.

Lemma fallback_tail_returns (fs : gmap string file) (depth : nat) :
  (fallback_tail fs (S depth)).2 = Returned tt
  <-> can_read fs "error.html" = true.
Proof.
  unfold fallback_tail, can_read.
  destruct (fs !! "error.html") as [[page|]|]; cbn; split; done.
Qed.

Lemma fallback_tail_deeper (fs : gmap string file) (depth depth' : nat) :
  (fallback_tail fs depth).2 = Returned tt -> (depth <= depth')%nat ->
  fallback_tail fs depth' = fallback_tail fs depth.
Proof.
  intros Hret Hle. destruct depth as [|depth]; [discriminate Hret|].
  destruct depth' as [|depth']; [lia|].
  apply fallback_tail_returns in Hret. unfold can_read in Hret.
  unfold fallback_tail.
  destruct (fs !! "error.html") as [[page|]|]; done.
Qed.

Section Coverage.

Variable urlparse_path : string -> string.
Variable guess_type : string -> option string.

(** X1.  A page that cannot be read, with [error.html] in place:
    [send_html_file] has sent the headers for [status] before it opens the
    file, and the 404 block and the bytes of [error.html] come after
    them. *)
Theorem unreadable_page_headers_then_404_page (depth : nat)
    (filename : string) (status : Z) (w : world) (page : list byte) :
  can_read (files w) filename = false ->
  files w !! "error.html" = Some (Readable page) ->
  send_html_file (S (S depth)) filename status w
  = (w <+ [SendResponse status; SendHeader "Content-type" "text/html";
           EndHeaders; Open filename;
           SendResponse 404; SendHeader "Content-type" "text/html";
           EndHeaders; Open "error.html"; WfileWrite page], Returned tt).
Proof.
  intros Hfile Hpage. rewrite send_html_file_fallback by exact Hfile.
  rewrite (send_html_file_ok depth "error.html" 404 _ page) by exact Hpage.
  rewrite extend_extend. reflexivity.
Qed.

(** X2.  A static file that opens but whose [read] raises, with
    [error.html] in place: the 200 headers with the guessed type are
    already sent, and the 404 block and the error page follow them. *)
Theorem static_read_failure_200_headers_then_404_page (depth : nat)
    (self_path : string) (w : world) (page : list byte) :
  files w !! slice_from_1 self_path = Some Unreadable ->
  files w !! "error.html" = Some (Readable page) ->
  send_static guess_type (S (S depth)) self_path w
  = (w <+ [Open (slice_from_1 self_path); SendResponse 200;
           SendHeader "Content-type"
             (py_or (guess_type (slice_from_1 self_path))
                    "application/octet-stream");
           EndHeaders;
           SendResponse 404; SendHeader "Content-type" "text/html";
           EndHeaders; Open "error.html"; WfileWrite page], Returned tt).
Proof.
  intros Hfile Hpage. rewrite send_static_read_fails by exact Hfile.
  rewrite (send_html_file_ok depth "error.html" 404 _ page) by exact Hpage.
  rewrite extend_extend. reflexivity.
Qed.

(** X3.  A request on the static route whose file does not open, with
    [error.html] in place, gets one response: status 404, [text/html],
    the bytes of [error.html]. *)
Theorem static_missing_file_one_404_response (depth : nat)
    (self_path : string) (w : world) (page : list byte) :
  startswith (urlparse_path self_path) "/static/" = true ->
  files w !! slice_from_1 self_path = None ->
  files w !! "error.html" = Some (Readable page) ->
  exists t : list event,
    do_GET urlparse_path guess_type (S (S depth)) self_path w
    = (w <+ t, Returned tt)
    /\ one_response t = true
    /\ wire t = [SendResponse 404; SendHeader "Content-type" "text/html";
                 EndHeaders; WfileWrite page].
Proof.
  intros Hstatic Hfile Hpage. eexists. split; [|split].
  - rewrite do_GET_static_route by exact Hstatic.
    exact (send_static_missing_answers_404 guess_type depth self_path w page
             Hfile Hpage).
  - reflexivity.
  - reflexivity.
Qed.

(** X5.  With two frames or more, and the calls on the connection
    returning, [send_html_file] and [send_static] return exactly when the
    file they are asked for or [error.html] can be read, and end in
    [RecursionError] otherwise: no failure of [open] or [read] leaves
    either method. *)
Theorem methods_return_iff_a_page_can_be_read (depth : nat)
    (filename : string) (status : Z) (self_path : string) (w : world) :
  (send_html_file (S (S depth)) filename status w).2
  = (if can_read (files w) filename || can_read (files w) "error.html"
     then Returned tt else Raised RecursionError)
  /\ (send_static guess_type (S (S depth)) self_path w).2
     = (if can_read (files w) (slice_from_1 self_path)
           || can_read (files w) "error.html"
        then Returned tt else Raised RecursionError).
Proof.
  assert (Hfb : (fallback_tail (files w) (S depth)).2
                = if can_read (files w) "error.html"
                  then Returned tt else Raised RecursionError).
  { unfold fallback_tail, can_read.
    by destruct (files w !! "error.html") as [[page|]|]. }
  split.
  - rewrite send_html_file_run. cbn [snd]. unfold attempt.
    unfold can_read at 1.
    destruct (files w !! filename) as [[c|]|]; cbn [snd orb];
      first [reflexivity | exact Hfb].
  - rewrite send_static_run. cbn [snd]. unfold attempt.
    unfold can_read at 1.
    destruct (files w !! slice_from_1 self_path) as [[c|]|]; cbn [snd orb];
      first [reflexivity | exact Hfb].
Qed.

(** X6.  The status lines of a request are a run of 404s, with a 200 in
    front on every path that sent headers before it failed: no other code
    is sent, and 200 never comes after a 404. *)
Theorem do_GET_status_lines (depth : nat) (self_path : string) (w : world) :
  exists (t : list event) (r : outcome unit) (k : nat),
    do_GET urlparse_path guess_type (S depth) self_path w = (w <+ t, r)
    /\ (status_lines t = repeat 404 k \/ status_lines t = 200 :: repeat 404 k).
Proof.
  cut (exists k : nat,
         let t := (response urlparse_path guess_type depth (files w)
                     self_path).1 in
         status_lines t = repeat 404 k \/ status_lines t = 200 :: repeat 404 k).
  { intros [k Hk]. eexists _, _, k. split; [apply do_GET_run | exact Hk]. }
  assert (Hfb : exists k, status_lines (fallback_tail (files w) depth).1
                          = repeat 404 k).
  { unfold fallback_tail. destruct depth as [|depth]; [by exists 0%nat|].
    destruct (files w !! "error.html") as [[page|]|].
    - by exists 1%nat.
    - exists (S depth). apply status_lines_retries.
    - exists (S depth). apply status_lines_retries. }
  destruct Hfb as [k Hk].
  unfold response, attempt.
  destruct (startswith (urlparse_path self_path) "/static/");
    destruct (files w !! route_file urlparse_path self_path) as [[c|]|];
    cbn [fst snd].
  all: unfold static_headers, html_headers, default_status; cbn [app].
  all: rewrite ?status_lines_Open, ?status_lines_block, ?status_lines_Open,
         ?status_lines_body, ?Hk.
  all: first [ exists 0%nat; right; reflexivity
             | exists k; left; reflexivity
             | exists k; right; reflexivity ].
Qed.

(** X7.  The calls a request makes on the response interface, each of
    them returning, come in blocks: [send_response], then exactly one
    [send_header], for [Content-type] and with a non-empty value, then
    [end_headers].  At most one [wfile.write] is made, and it is the last
    call. *)
Theorem do_GET_header_blocks_then_body (depth : nat) (self_path : string)
    (w : world) :
  exists (t : list event) (r : outcome unit),
    do_GET urlparse_path guess_type (S depth) self_path w = (w <+ t, r)
    /\ header_blocks_then_body (wire t) = true.
Proof.
  eexists _, _. split; [apply do_GET_run|].
  assert (Hfb : header_blocks_then_body (wire (fallback_tail (files w) depth).1)
                = true).
  { unfold fallback_tail. destruct depth as [|depth]; [reflexivity|].
    destruct (files w !! "error.html") as [[page|]|]; [reflexivity| |];
      apply header_blocks_retries_only. }
  pose proof (py_or_nonempty
                (guess_type (route_file urlparse_path self_path))
                "application/octet-stream") as Htype.
  unfold response, attempt.
  destruct (startswith (urlparse_path self_path) "/static/");
    destruct (files w !! route_file urlparse_path self_path) as [[c|]|];
    cbn [fst snd];
    unfold static_headers, html_headers, default_status; cbn [app];
    rewrite ?wire_Open, ?wire_block, ?wire_Open;
    rewrite ?header_blocks_block by (first [discriminate | by apply Htype]);
    first [reflexivity | exact Hfb].
Qed.

(** X8.  The first name a request opens is the file of its route, and
    every name opened after it is [error.html]: the page routes open no
    name that comes from the request. *)
Theorem do_GET_opens_route_file_then_error_html (depth : nat)
    (self_path : string) (w : world) :
  exists (t : list event) (r : outcome unit) (k : nat),
    do_GET urlparse_path guess_type (S depth) self_path w = (w <+ t, r)
    /\ opened t = route_file urlparse_path self_path :: repeat "error.html" k.
Proof.
  cut (exists k : nat,
         opened (response urlparse_path guess_type depth (files w)
                   self_path).1
         = route_file urlparse_path self_path :: repeat "error.html" k).
  { intros [k Hk]. eexists _, _, k. split; [apply do_GET_run | exact Hk]. }
  assert (Hfb : exists k, opened (fallback_tail (files w) depth).1
                          = repeat "error.html" k).
  { unfold fallback_tail. destruct depth as [|depth]; [by exists 0%nat|].
    destruct (files w !! "error.html") as [[page|]|].
    - by exists 1%nat.
    - exists (S depth). apply opened_retries.
    - exists (S depth). apply opened_retries. }
  destruct Hfb as [k Hk].
  unfold response, attempt.
  destruct (startswith (urlparse_path self_path) "/static/");
    destruct (files w !! route_file urlparse_path self_path) as [[c|]|];
    cbn [fst snd];
    unfold static_headers, html_headers, default_status; cbn [app];
    rewrite ?opened_block, ?opened_Open, ?opened_block, ?Hk;
    first [by exists 0%nat | by exists k].
Qed.

Lemma attempt_deeper (fs : gmap string file) (depth depth' : nat)
    (before after : list event) (f : string) :
  (attempt fs depth before after f).2 = Returned tt -> (depth <= depth')%nat ->
  attempt fs depth' before after f = attempt fs depth before after f.
Proof.
  unfold attempt. intros Hret Hle.
  destruct (fs !! f) as [[c|]|]; [reflexivity| |];
    cbn [snd] in Hret; by rewrite (fallback_tail_deeper fs depth depth').
Qed.

(** X9.  A request that returns with some number of frames gives the same
    log and returns with any larger number: the recursion limit matters
    only to the requests that end in [RecursionError]. *)
Theorem do_GET_deeper_stack_same_answer (depth depth' : nat)
    (self_path : string) (w w' : world) :
  do_GET urlparse_path guess_type depth self_path w = (w', Returned tt) ->
  (depth <= depth')%nat ->
  do_GET urlparse_path guess_type depth' self_path w = (w', Returned tt).
Proof.
  intros Hrun Hle. destruct depth as [|depth].
  - exfalso. revert Hrun. unfold do_GET.
    destruct (String.eqb (urlparse_path self_path) "/"); [discriminate|].
    destruct (String.eqb (urlparse_path self_path) "/search"); [discriminate|].
    destruct (startswith (urlparse_path self_path) "/static/"); discriminate.
  - destruct depth' as [|depth']; [lia|].
    rewrite do_GET_run in Hrun. rewrite do_GET_run.
    injection Hrun as Hw Hret.
    assert (Hsame : response urlparse_path guess_type depth' (files w) self_path
                    = response urlparse_path guess_type depth (files w) self_path).
    { revert Hret. unfold response.
      destruct (startswith (urlparse_path self_path) "/static/");
        intros Hret; apply attempt_deeper; first [exact Hret | lia]. }
    rewrite Hsame, Hw, Hret. reflexivity.
Qed.

(** X10.  A request writes at most one body, and a body it writes is the
    content of a file as it is: of the file of the route, or of
    [error.html]. *)
Theorem do_GET_body_is_a_file (depth : nat) (self_path : string) (w : world) :
  exists (t : list event) (r : outcome unit),
    do_GET urlparse_path guess_type (S depth) self_path w = (w <+ t, r)
    /\ (bodies t = []
        \/ exists content : list byte,
             bodies t = [content]
             /\ (files w !! route_file urlparse_path self_path
                 = Some (Readable content)
                 \/ files w !! "error.html" = Some (Readable content))).
Proof.
  eexists _, _. split; [apply do_GET_run|].
  assert (Hfb : bodies (fallback_tail (files w) depth).1 = []
                \/ exists page, bodies (fallback_tail (files w) depth).1 = [page]
                     /\ files w !! "error.html" = Some (Readable page)).
  { unfold fallback_tail. destruct depth as [|depth]; [by left|].
    destruct (files w !! "error.html") as [[page|]|].
    - right. by exists page.
    - left. apply bodies_retries.
    - left. apply bodies_retries. }
  unfold response, attempt.
  destruct (startswith (urlparse_path self_path) "/static/");
    destruct (files w !! route_file urlparse_path self_path) as [[c|]|] eqn:Hf;
    cbn [fst snd];
    unfold static_headers, html_headers, default_status; cbn [app];
    rewrite ?bodies_block, ?bodies_Open, ?bodies_block.
  all: first
    [ right; exists c; split; [reflexivity | by left]
    | destruct Hfb as [Hnone | (page & Hone & Hpage)];
      [ by left | right; exists page; split; [exact Hone | by right] ] ].
Qed.

End Coverage.

(** ** [run] *)

(** X12.  Once the server object exists, [server_close] is called exactly
    once, after [serve_forever], whatever way [serve_forever] ended, and
    the last thing printed is the line that the server was stopped, also
    when an error is on its way out. *)
Theorem run_closes_the_server_once (sc : server_class) :
  init_result sc = None ->
  exists front : list run_event,
    (run sc []).1 = front ++ [ServerClose; Print "Сервер успішно зупинено"]
    /\ In ServeForever front
    /\ ~ In ServerClose front.
Proof.
  destruct sc as [init serving]. cbn [init_result]. intros ->.
  destruct serving as [[|e]|].
  - eexists [_; _; _; _; _]. split; [reflexivity|]. split.
    + cbn. tauto.
    + cbn. intros H. repeat (destruct H as [H | H]; [discriminate H|]). destruct H.
  - eexists [_; _; _; _]. split; [reflexivity|]. split.
    + cbn. tauto.
    + cbn. intros H. repeat (destruct H as [H | H]; [discriminate H|]). destruct H.
  - eexists [_; _; _; _]. split; [reflexivity|]. split.
    + cbn. tauto.
    + cbn. intros H. repeat (destruct H as [H | H]; [discriminate H|]). destruct H.
Qed.

(** X13.  [run] returns when [serve_forever] returns or is interrupted
    from the keyboard, and only the interrupt prints the line that the
    server is being stopped; any other exception of [serve_forever]
    leaves [run] as it is, after the clean-up. *)
Theorem run_swallows_the_interrupt_only (sc : server_class) :
  init_result sc = None ->
  (run sc []).2
  = match serve_forever_result sc with
    | Some (Error e) => Propagated (Error e)
    | _ => Finished tt
    end
  /\ (In (Print (newline +:+ "Зупиняємо сервер ...")) (run sc []).1
      <-> serve_forever_result sc = Some KeyboardInterrupt).
Proof.
  destruct sc as [init serving]. cbn [init_result serve_forever_result].
  intros ->. destruct serving as [[|e]|]; (split; [reflexivity|]).
  - split; [reflexivity|]. intros _. cbn.
    repeat first [left; reflexivity | right].
  - split; [|discriminate]. cbn. intros H. repeat (destruct H as [H | H]; [discriminate H|]). destruct H.
  - split; [|discriminate]. cbn. intros H. repeat (destruct H as [H | H]; [discriminate H|]). destruct H.
Qed.

(** X14.  When the constructor of the server raises, [run] prints nothing
    and closes nothing: the exception leaves it at once.  The address it
    asked for is the empty host and port 8080. *)
Theorem run_constructor_failure_propagates (sc : server_class) (r : raised) :
  init_result sc = Some r ->
  run sc [] = ([Construct "" 8080], Propagated r).
Proof.
  destruct sc as [init serving]. cbn [init_result]. intros ->. reflexivity.
Qed.

(** ** The theorems above at concrete inputs *)

Lemma unreadable_page_witness :
  let w := empty_world project_files_with_root_error_page in
  can_read (files w) "templates/missing.html" = false
  /\ files w !! "error.html" = Some (Readable (bytes "<h1>root error</h1>"))
  /\ send_html_file 2 "templates/missing.html" 200 w
     = (w <+ [SendResponse 200; SendHeader "Content-type" "text/html";
              EndHeaders; Open "templates/missing.html";
              SendResponse 404; SendHeader "Content-type" "text/html";
              EndHeaders; Open "error.html";
              WfileWrite (bytes "<h1>root error</h1>")], Returned tt).
Proof.
  intros w. split; [reflexivity|]. split; [reflexivity|].
  apply (unreadable_page_headers_then_404_page 0 "templates/missing.html" 200
           w (bytes "<h1>root error</h1>")); reflexivity.
Defined.

Lemma static_read_failure_witness :
  let w := empty_world
             (<[ "static/broken.css" := Unreadable ]>
                project_files_with_root_error_page) in
  files w !! slice_from_1 "/static/broken.css" = Some Unreadable
  /\ files w !! "error.html" = Some (Readable (bytes "<h1>root error</h1>"))
  /\ send_static mimetypes.guess_type 2 "/static/broken.css" w
     = (w <+ [Open "static/broken.css"; SendResponse 200;
              SendHeader "Content-type" "text/css"; EndHeaders;
              SendResponse 404; SendHeader "Content-type" "text/html";
              EndHeaders; Open "error.html";
              WfileWrite (bytes "<h1>root error</h1>")], Returned tt).
Proof.
  intros w. split; [reflexivity|]. split; [reflexivity|].
  apply (static_read_failure_200_headers_then_404_page mimetypes.guess_type 0
           "/static/broken.css" w (bytes "<h1>root error</h1>")); reflexivity.
Defined.

Lemma static_missing_file_witness :
  let w := empty_world project_files_with_root_error_page in
  startswith (urllib.urlparse_path "/static/missing.css") "/static/" = true
  /\ files w !! slice_from_1 "/static/missing.css" = None
  /\ files w !! "error.html" = Some (Readable (bytes "<h1>root error</h1>"))
  /\ exists t : list event,
       handle 2 "/static/missing.css" w = (w <+ t, Returned tt)
       /\ one_response t = true
       /\ wire t = [SendResponse 404; SendHeader "Content-type" "text/html";
                    EndHeaders; WfileWrite (bytes "<h1>root error</h1>")].
Proof.
  intros w. split; [reflexivity|]. split; [reflexivity|].
  split; [reflexivity|].
  apply (static_missing_file_one_404_response urllib.urlparse_path
           mimetypes.guess_type 0 "/static/missing.css" w
           (bytes "<h1>root error</h1>")); reflexivity.
Defined.

Lemma deeper_stack_witness :
  let w := empty_world project_files_with_root_error_page in
  let w' := w <+ [Open "static/missing.css"; SendResponse 404;
                  SendHeader "Content-type" "text/html"; EndHeaders;
                  Open "error.html";
                  WfileWrite (bytes "<h1>root error</h1>")] in
  handle 2 "/static/missing.css" w = (w', Returned tt)
  /\ (2 <= 1000)%nat
  /\ handle 1000 "/static/missing.css" w = (w', Returned tt).
Proof.
  intros w w'.
  assert (Hrun : handle 2 "/static/missing.css" w = (w', Returned tt))
    by reflexivity.
  assert (Hle : (2 <= 1000)%nat) by lia.
  split; [exact Hrun|]. split; [exact Hle|].
  exact (do_GET_deeper_stack_same_answer urllib.urlparse_path
           mimetypes.guess_type 2 1000 "/static/missing.css" w w' Hrun Hle).
Defined.

Lemma run_interrupted_witness :
  let sc := ServerClass None (Some KeyboardInterrupt) in
  init_result sc = None
  /\ (exists front : list run_event,
        (run sc []).1 = front ++ [ServerClose; Print "Сервер успішно зупинено"]
        /\ In ServeForever front /\ ~ In ServerClose front).
Proof.
  intros sc. split; [reflexivity|].
  exact (run_closes_the_server_once sc eq_refl).
Defined.

Lemma run_error_witness :
  let sc := ServerClass None (Some (Error OSError)) in
  init_result sc = None
  /\ (run sc []).2 = Propagated (Error OSError)
  /\ ~ In (Print (newline +:+ "Зупиняємо сервер ...")) (run sc []).1.
Proof.
  intros sc. split; [reflexivity|].
  destruct (run_swallows_the_interrupt_only sc eq_refl) as [Hend Hprint].
  split; [exact Hend|]. intros Hin. apply Hprint in Hin. discriminate Hin.
Defined.

Lemma run_constructor_failure_witness :
  let sc := ServerClass (Some (Error OSError)) None in
  init_result sc = Some (Error OSError)
  /\ run sc [] = ([Construct "" 8080], Propagated (Error OSError)).
Proof.
  intros sc. split; [reflexivity|].
  exact (run_constructor_failure_propagates sc (Error OSError) eq_refl).
Defined.
